(** * VSCodeOpenFileAction: the record of openhands/events/action/vscode.py

    The dataclass [VSCodeOpenFileAction], its generated constructor and
    equality, the [message] property and the [__str__] formatter, embedded
    as Rocq definitions, with the properties its specification states. *)

From Stdlib Require Import Bool Ascii String List Arith Lia.
Import ListNotations.
Open Scope string_scope.

(** ** Python values used by the module *)

(** The line feed written ['\n'] in the source's string literals. *)
Definition LF : ascii := ascii_of_nat 10.
Definition nl : string := String LF EmptyString.

(** Truth value of a [str] in a condition ([if self.thought:]): a string is
    true exactly when it is not empty. *)
Definition str_bool (s : string) : bool :=
  match s with
  | EmptyString => false
  | String _ _ => true
  end.

(** The exception the generated constructor raises when a parameter with
    no default is not bound by the call: Python's [TypeError] for a missing
    required positional argument, carrying the parameter's name. *)
Inductive Exception : Type :=
| TypeError_missing_argument (param : string).

(** Outcome of a call: a returned value or a raised exception. *)
Inductive Result (A : Type) : Type :=
| Ok (value : A)
| Raise (exc : Exception).
Arguments Ok {A} value.
Arguments Raise {A} exc.

Section VSCode.

(** [openhands.events.action.action.ActionSecurityRisk], an enumeration
    declared outside this module; members compare by equality. *)
Variable ActionSecurityRisk : Type.
Variable ActionSecurityRisk_eq_dec :
  forall x y : ActionSecurityRisk, {x = y} + {x <> y}.

(** [openhands.core.schema.ActionType.VSCODE_OPEN_FILE], a string constant
    declared outside this module. *)
Variable VSCODE_OPEN_FILE : string.

(** ** The dataclass *)

(** The instance fields, in declaration order.  [runnable] is annotated
    [ClassVar], so the dataclass machinery leaves it out of the fields.
    The base class [Action] is declared outside this module; the record
    holds the fields this module declares. *)
Record VSCodeOpenFileAction : Type := mkVSCodeOpenFileAction {
  file_path : string;
  thought : string;
  action : string;
  security_risk : option ActionSecurityRisk
}.

(** [runnable: ClassVar[bool] = True], an attribute of the class. *)
Definition runnable : bool := true.

(** Reading [self.runnable] on an instance: the constructor stores no
    attribute of that name on the instance, so the lookup resolves to the
    class attribute. *)
Definition instance_runnable (self : VSCodeOpenFileAction) : bool := runnable.

(** The arguments of one constructor call, by parameter: [None] when the
    call binds nothing to the parameter (positionally or by keyword). *)
Record InitArgs : Type := mkInitArgs {
  arg_file_path : option string;
  arg_thought : option string;
  arg_action : option string;
  arg_security_risk : option (option ActionSecurityRisk)
}.

Definition or_default {A : Type} (given : option A) (dflt : A) : A :=
  match given with
  | Some v => v
  | None => dflt
  end.

(** The [__init__] that [@dataclass] generates from the field list:
    [file_path] has no default and must be bound; [thought], [action] and
    [security_risk] fall back to their declared defaults. *)
Definition __init__ (args : InitArgs) : Result VSCodeOpenFileAction :=
  match arg_file_path args with
  | None => Raise (TypeError_missing_argument "file_path")
  | Some p =>
      Ok {| file_path := p;
            thought := or_default (arg_thought args) EmptyString;
            action := or_default (arg_action args) VSCODE_OPEN_FILE;
            security_risk := or_default (arg_security_risk args) None |}
  end.

(** The [__eq__] that [@dataclass] generates for two instances of the
    class: the tuples of fields, in declaration order, are compared. *)
Definition option_eqb (x y : option ActionSecurityRisk) : bool :=
  match x, y with
  | None, None => true
  | Some u, Some v => if ActionSecurityRisk_eq_dec u v then true else false
  | _, _ => false
  end.

Definition __eq__ (self other : VSCodeOpenFileAction) : bool :=
  String.eqb (file_path self) (file_path other)
  && String.eqb (thought self) (thought other)
  && String.eqb (action self) (action other)
  && option_eqb (security_risk self) (security_risk other).

(** ** Methods

    A method body runs against the instance it is called on: it receives
    [self], returns or raises, and leaves [self] as it then is. *)
Definition Method (A : Type) : Type :=
  VSCodeOpenFileAction -> Result A * VSCodeOpenFileAction.

Definition ret {A : Type} (v : A) : Method A :=
  fun self => (Ok v, self).

Definition bind {A B : Type} (m : Method A) (k : A -> Method B) : Method B :=
  fun self =>
    match m self with
    | (Ok v, self') => k v self'
    | (Raise e, self') => (Raise e, self')
    end.

(** Attribute read [self.f]. *)
Definition getattr {A : Type} (f : VSCodeOpenFileAction -> A) : Method A :=
  fun self => (Ok (f self), self).

Notation "x <- m ;; k" := (bind m (fun x => k))
  (at level 61, m at next level, right associativity).

(** [message]: the f-string interpolates [self.file_path], a [str], which
    formats as itself. *)
Definition message : Method string :=
  p <- getattr file_path ;;
  ret ("Opening file in VSCode: " ++ p).

(** [__str__]: the local [ret] is extended in place by [+=]; each stage is
    named here. *)
Definition __str__ : Method string :=
  let ret0 := "**VSCodeOpenFileAction**" ++ nl in
  c <- getattr thought ;;
  ret1 <- (if str_bool c
           then t <- getattr thought ;; ret (ret0 ++ ("THOUGHT: " ++ t ++ nl))
           else ret ret0) ;;
  p <- getattr file_path ;;
  ret (ret1 ++ ("FILE_PATH: " ++ p)).

(** The value a method call returns, and the instance after the call. *)
Definition returned {A : Type} (m : Method A) (self : VSCodeOpenFileAction)
  : Result A := fst (m self).
Definition self_after {A : Type} (m : Method A) (self : VSCodeOpenFileAction)
  : VSCodeOpenFileAction := snd (m self).

End VSCode.

Arguments file_path {ActionSecurityRisk} _.
Arguments thought {ActionSecurityRisk} _.
Arguments action {ActionSecurityRisk} _.
Arguments security_risk {ActionSecurityRisk} _.
Arguments mkVSCodeOpenFileAction {ActionSecurityRisk} _ _ _ _.
Arguments mkInitArgs {ActionSecurityRisk} _ _ _ _.
Arguments arg_file_path {ActionSecurityRisk} _.
Arguments arg_thought {ActionSecurityRisk} _.
Arguments arg_action {ActionSecurityRisk} _.
Arguments arg_security_risk {ActionSecurityRisk} _.
Arguments instance_runnable {ActionSecurityRisk} _.
Arguments __init__ {ActionSecurityRisk} VSCODE_OPEN_FILE args.
Arguments __eq__ {ActionSecurityRisk} ActionSecurityRisk_eq_dec self other.
Arguments message {ActionSecurityRisk} _.
Arguments __str__ {ActionSecurityRisk} _.
Arguments returned {ActionSecurityRisk A} m self.
Arguments self_after {ActionSecurityRisk A} m self.

(** ** Lines of a rendered text *)

(** The text up to the first line feed. *)
Fixpoint first_line (s : string) : string :=
  match s with
  | EmptyString => EmptyString
  | String c rest => if Ascii.eqb c LF then EmptyString else String c (first_line rest)
  end.

(** The text after the first line feed, when there is one. *)
Fixpoint after_first_line (s : string) : option string :=
  match s with
  | EmptyString => None
  | String c rest => if Ascii.eqb c LF then Some rest else after_first_line rest
  end.

Definition second_line (s : string) : option string :=
  option_map first_line (after_first_line s).

(** The second line of a rendered text is a THOUGHT line. *)
Definition has_thought_line (s : string) : bool :=
  match second_line s with
  | Some l => prefix "THOUGHT: " l
  | None => false
  end.

(** The text holds no line feed: it is a single line. *)
Fixpoint single_line (s : string) : bool :=
  match s with
  | EmptyString => true
  | String c rest => negb (Ascii.eqb c LF) && single_line rest
  end.

(** The lines of a text, as Python's [s.split('\n')] gives them: the
    text cut at every line feed, line feeds dropped. *)
Fixpoint split_lines (s : string) : list string :=
  match s with
  | EmptyString => [EmptyString]
  | String c rest =>
      if Ascii.eqb c LF then EmptyString :: split_lines rest
      else match split_lines rest with
           | l :: ls => String c l :: ls
           | [] => [String c EmptyString]
           end
  end.

(** ** Properties *)

Section Properties.

Variable ActionSecurityRisk : Type.
Variable ActionSecurityRisk_eq_dec :
  forall x y : ActionSecurityRisk, {x = y} + {x <> y}.
Variable VSCODE_OPEN_FILE : string.

Let Action : Type := VSCodeOpenFileAction ActionSecurityRisk.
Let new : InitArgs ActionSecurityRisk -> Result Action :=
  __init__ VSCODE_OPEN_FILE.

(** Unfolds a method body down to the reads of [self]. *)
Ltac run_method :=
  unfold message, __str__, returned, self_after, bind, ret, getattr; simpl.

(** *** Strings and lines *)

Lemma append_assoc (a b c : string) : (a ++ b) ++ c = a ++ (b ++ c).
Proof.
  induction a as [|ch a IH]; simpl.
  - reflexivity.
  - now rewrite IH.
Qed.

Lemma str_bool_true_iff (s : string) : str_bool s = true <-> s <> EmptyString.
Proof.
  destruct s; simpl; split; intro H; try reflexivity; try discriminate.
  now contradiction H.
Qed.

Lemma prefix_empty (s : string) : prefix EmptyString s = true.
Proof. destruct s; reflexivity. Qed.

(** *** The record and its methods *)

(** What [__str__] returns, by the truth of [thought]; [self] is left as
    it was. *)
Lemma str_run (self : Action) :
  __str__ self =
  (Ok (if str_bool (thought self)
       then ("**VSCodeOpenFileAction**" ++ nl)
              ++ ("THOUGHT: " ++ thought self ++ nl)
              ++ ("FILE_PATH: " ++ file_path self)
       else ("**VSCodeOpenFileAction**" ++ nl)
              ++ ("FILE_PATH: " ++ file_path self)),
   self).
Proof.
  run_method.
  destruct (str_bool (thought self)); simpl; [|reflexivity].
  now rewrite !append_assoc.
Qed.

(** Two records are the same value exactly when their four fields agree. *)
Lemma record_eq_iff (a b : Action) :
  a = b <->
  file_path a = file_path b /\ thought a = thought b
  /\ action a = action b /\ security_risk a = security_risk b.
Proof.
  split.
  - intros ->. repeat split.
  - destruct a, b; simpl. intros (-> & -> & -> & ->). reflexivity.
Qed.

Lemma option_eqb_eq (x y : option ActionSecurityRisk) :
  option_eqb ActionSecurityRisk ActionSecurityRisk_eq_dec x y = true <-> x = y.
Proof.
  destruct x as [u|], y as [v|]; simpl; try (split; congruence).
  destruct (ActionSecurityRisk_eq_dec u v) as [->|Hne]; split; congruence.
Qed.

(** What [message] returns; [self] is left as it was. *)
Lemma message_run (self : Action) :
  message self = (Ok ("Opening file in VSCode: " ++ file_path self), self).
Proof.
  run_method. reflexivity.
Qed.

(** C1: for every record, [message] returns exactly
    "Opening file in VSCode: " followed by the record's [file_path], and
    the record is the same after the call. *)
Theorem message_returns_summary (self : Action) :
  returned message self = Ok ("Opening file in VSCode: " ++ file_path self)
  /\ self_after message self = self.
Proof.
  unfold returned, self_after.
  rewrite message_run. split; reflexivity.
Qed.

(** C2: for a non-empty path [p], the record constructed from [p] with no
    [thought] argument renders as the header line followed by
    "FILE_PATH: " and [p], and nothing after [p]; the call leaves the
    record as it was. *)
Theorem str_without_thought (p : string) (act : option string)
    (risk : option (option ActionSecurityRisk)) :
  p <> EmptyString ->
  exists self : Action,
    new (mkInitArgs (Some p) None act risk) = Ok self
    /\ __str__ self
       = (Ok (("**VSCodeOpenFileAction**" ++ nl ++ "FILE_PATH: ") ++ p), self).
Proof.
  intros _. unfold new, __init__; simpl.
  eexists; split; [reflexivity|].
  rewrite str_run; simpl. reflexivity.
Qed.

(** C3: for any path [p] and non-empty thought [t], the record constructed
    from both renders as the header line, "THOUGHT: " and [t], a line
    feed, "FILE_PATH: " and [p]; and for every record the second line of
    the rendering is a THOUGHT line exactly when [thought] is not empty. *)
Theorem str_with_thought (p t : string) (act : option string)
    (risk : option (option ActionSecurityRisk)) :
  t <> EmptyString ->
  (exists self : Action,
     new (mkInitArgs (Some p) (Some t) act risk) = Ok self
     /\ __str__ self
        = (Ok (((("**VSCodeOpenFileAction**" ++ nl ++ "THOUGHT: ") ++ t)
                 ++ (nl ++ "FILE_PATH: ")) ++ p), self))
  /\ (forall (self : Action) (out : string),
        returned __str__ self = Ok out ->
        (has_thought_line out = true <-> thought self <> EmptyString)).
Proof.
  intros Ht. split.
  - unfold new, __init__; simpl.
    eexists; split; [reflexivity|].
    rewrite str_run; simpl.
    apply str_bool_true_iff in Ht. rewrite Ht.
    simpl. now rewrite !append_assoc.
  - intros self out. unfold returned. rewrite str_run; simpl.
    rewrite <- str_bool_true_iff.
    destruct (str_bool (thought self)); intros [= <-].
    + unfold has_thought_line, second_line; simpl.
      rewrite prefix_empty. tauto.
    + unfold has_thought_line, second_line; simpl.
      split; discriminate.
Qed.

(** C4 (as amended): a record constructed without an [action] argument has
    [action] equal to [ActionType.VSCODE_OPEN_FILE], whatever the other
    arguments are. *)
Theorem action_defaults_to_constant (args : InitArgs ActionSecurityRisk)
    (self : Action) :
  arg_action args = None ->
  new args = Ok self ->
  action self = VSCODE_OPEN_FILE.
Proof.
  unfold new, __init__. intros Hact.
  destruct (arg_file_path args) as [p|]; [|discriminate].
  intros [= <-]. simpl. now rewrite Hact.
Qed.

(** C5: [runnable] read on any instance is [True]; it is the class
    attribute, so any two instances read the same value. *)
Theorem runnable_is_class_constant (self other : Action) :
  instance_runnable self = true
  /\ instance_runnable self = runnable
  /\ instance_runnable self = instance_runnable other.
Proof.
  unfold instance_runnable, runnable. repeat split.
Qed.

(** C6: a call that binds nothing to [file_path] raises the missing
    argument error for [file_path], whatever else it binds; a call succeeds
    exactly when [file_path] is bound; and a call that binds only
    [file_path] yields [thought] empty and [security_risk] [None]. *)
Theorem init_requires_file_path :
  (forall (t act : option string) (risk : option (option ActionSecurityRisk)),
     new (mkInitArgs None t act risk)
     = Raise (TypeError_missing_argument "file_path"))
  /\ (forall args : InitArgs ActionSecurityRisk,
        (exists self, new args = Ok self) <-> arg_file_path args <> None)
  /\ (forall p : string,
        exists self : Action,
          new (mkInitArgs (Some p) None None None) = Ok self
          /\ file_path self = p
          /\ thought self = EmptyString
          /\ security_risk self = None).
Proof.
  unfold new, __init__. split; [|split].
  - reflexivity.
  - intros args. destruct (arg_file_path args) as [p|]; split.
    + discriminate.
    + intros _. eexists; reflexivity.
    + intros [self H]; discriminate.
    + intros H; now contradiction H.
  - intros p. eexists; simpl; repeat split.
Qed.

(** C7: on every record, [message] and [__str__] both return a string (they
    do not raise) and leave every field of the record as it was. *)
Theorem accessors_total_and_pure (self : Action) :
  (exists s, message self = (Ok s, self))
  /\ (exists s, __str__ self = (Ok s, self)).
Proof.
  split.
  - rewrite message_run. eexists; reflexivity.
  - rewrite str_run. eexists; reflexivity.
Qed.

(** C8: two instances are equal under the generated [__eq__] exactly when
    their four fields are pairwise equal, which is exactly when they are
    the same record value. *)
Theorem eq_iff_fields_equal (a b : Action) :
  (__eq__ ActionSecurityRisk_eq_dec a b = true <->
   file_path a = file_path b /\ thought a = thought b
   /\ action a = action b /\ security_risk a = security_risk b)
  /\ (__eq__ ActionSecurityRisk_eq_dec a b = true <-> a = b).
Proof.
  assert (H : __eq__ ActionSecurityRisk_eq_dec a b = true <->
              file_path a = file_path b /\ thought a = thought b
              /\ action a = action b /\ security_risk a = security_risk b).
  { unfold __eq__. rewrite !andb_true_iff, !String.eqb_eq, option_eqb_eq.
    tauto. }
  split; [exact H|].
  rewrite H. symmetry. apply record_eq_iff.
Qed.

(** C9: two records that agree on [file_path] and [thought] get the same
    strings from [message] and from [__str__], whatever their [action] and
    [security_risk] are. *)
Theorem accessors_ignore_action_and_risk (a b : Action) :
  file_path a = file_path b ->
  thought a = thought b ->
  returned message a = returned message b
  /\ returned __str__ a = returned __str__ b.
Proof.
  intros Hp Ht. unfold returned.
  rewrite !message_run, !str_run; simpl.
  now rewrite Hp, Ht.
Qed.

(** C10: the record constructed from the empty path with no [thought]
    argument has [message] "Opening file in VSCode: " and renders as the
    header line followed by "FILE_PATH: ". *)
Theorem empty_file_path_formats (act : option string)
    (risk : option (option ActionSecurityRisk)) :
  exists self : Action,
    new (mkInitArgs (Some EmptyString) None act risk) = Ok self
    /\ message self = (Ok "Opening file in VSCode: ", self)
    /\ __str__ self
       = (Ok ("**VSCodeOpenFileAction**" ++ nl ++ "FILE_PATH: "), self).
Proof.
  unfold new, __init__; simpl.
  eexists; split; [reflexivity|]. split.
  - rewrite message_run. reflexivity.
  - rewrite str_run. reflexivity.
Qed.

(** *** Line structure of texts *)

Lemma append_inj_l (a x y : string) : a ++ x = a ++ y -> x = y.
Proof.
  induction a as [|ch a IH]; simpl; intros H.
  - exact H.
  - injection H as H. now apply IH.
Qed.

Lemma length_append (a b : string) :
  String.length (a ++ b) = String.length a + String.length b.
Proof.
  induction a as [|ch a IH]; simpl; [reflexivity|]. now rewrite IH.
Qed.

Lemma str_bool_false_iff (s : string) : str_bool s = false <-> s = EmptyString.
Proof.
  destruct s; simpl; split; intro H; try reflexivity; discriminate.
Qed.

Lemma first_line_before_nl (t x : string) :
  single_line t = true -> first_line (t ++ nl ++ x) = t.
Proof.
  induction t as [|ch t IH];
    cbn [first_line after_first_line split_lines single_line append];
    intros H.
  - reflexivity.
  - apply andb_true_iff in H as [Hc Ht].
    apply negb_true_iff in Hc. rewrite Hc. now rewrite IH.
Qed.

Lemma after_first_line_nl (t x : string) :
  single_line t = true -> after_first_line (t ++ nl ++ x) = Some x.
Proof.
  induction t as [|ch t IH];
    cbn [first_line after_first_line split_lines single_line append];
    intros H.
  - reflexivity.
  - apply andb_true_iff in H as [Hc Ht].
    apply negb_true_iff in Hc. rewrite Hc. now apply IH.
Qed.

Lemma append_nl_inj (t1 t2 x y : string) :
  single_line t1 = true -> single_line t2 = true ->
  t1 ++ nl ++ x = t2 ++ nl ++ y -> t1 = t2 /\ x = y.
Proof.
  intros H1 H2 H. split.
  - apply (f_equal first_line) in H.
    now rewrite !first_line_before_nl in H.
  - apply (f_equal after_first_line) in H.
    rewrite !after_first_line_nl in H by assumption. now injection H.
Qed.

Lemma split_lines_single (t : string) :
  single_line t = true -> split_lines t = [t].
Proof.
  induction t as [|ch t IH];
    cbn [first_line after_first_line split_lines single_line append];
    intros H.
  - reflexivity.
  - apply andb_true_iff in H as [Hc Ht].
    apply negb_true_iff in Hc. rewrite Hc. now rewrite IH.
Qed.

Lemma split_lines_nl (t x : string) :
  single_line t = true -> split_lines (t ++ nl ++ x) = t :: split_lines x.
Proof.
  induction t as [|ch t IH];
    cbn [first_line after_first_line split_lines single_line append];
    intros H.
  - reflexivity.
  - apply andb_true_iff in H as [Hc Ht].
    apply negb_true_iff in Hc. rewrite Hc. now rewrite IH.
Qed.

(** The rendering with its fixed texts split off, for a record with a
    thought and for one without. *)
Lemma str_run_thought (self : Action) :
  thought self <> EmptyString ->
  returned __str__ self
  = Ok ("**VSCodeOpenFileAction**" ++ nl
        ++ ("THOUGHT: " ++ thought self) ++ nl
        ++ "FILE_PATH: " ++ file_path self).
Proof.
  intros Ht. unfold returned. rewrite str_run.
  apply str_bool_true_iff in Ht. rewrite Ht.
  cbn [fst]. now rewrite !append_assoc.
Qed.

Lemma str_run_no_thought (self : Action) :
  thought self = EmptyString ->
  returned __str__ self
  = Ok ("**VSCodeOpenFileAction**" ++ nl ++ "FILE_PATH: " ++ file_path self).
Proof.
  intros Ht. unfold returned. rewrite str_run, Ht.
  cbn [fst str_bool]. now rewrite !append_assoc.
Qed.

Lemma dataclass_eq_true_iff (a b : Action) :
  __eq__ ActionSecurityRisk_eq_dec a b = true <-> a = b.
Proof.
  rewrite record_eq_iff. unfold __eq__.
  rewrite !andb_true_iff, !String.eqb_eq, option_eqb_eq. tauto.
Qed.

(** *** Further properties *)

(** X1: two records get the same [message] exactly when they have the same
    [file_path]: the path can be read back from the summary. *)
Theorem message_determines_file_path (a b : Action) :
  returned message a = returned message b <-> file_path a = file_path b.
Proof.
  unfold returned. rewrite !message_run. cbn [fst]. split.
  - intros [= H]. exact H.
  - now intros ->.
Qed.

(** X2: among records whose [thought] is a single line, the rendering
    determines both [thought] and [file_path]. *)
Theorem str_injective_on_single_line_thought (a b : Action) :
  single_line (thought a) = true ->
  single_line (thought b) = true ->
  (returned __str__ a = returned __str__ b
   <-> thought a = thought b /\ file_path a = file_path b).
Proof.
  intros Ha Hb. split.
  - destruct (str_bool (thought a)) eqn:Ea, (str_bool (thought b)) eqn:Eb.
    + apply str_bool_true_iff in Ea, Eb.
      rewrite (str_run_thought a Ea), (str_run_thought b Eb).
      intros [= H].
      apply (append_nl_inj (thought a) (thought b)
               ("FILE_PATH: " ++ file_path a) ("FILE_PATH: " ++ file_path b)
               Ha Hb) in H.
      destruct H as [Ht Hp]. split.
      * exact Ht.
      * exact (append_inj_l _ _ _ Hp).
    + apply str_bool_true_iff in Ea. apply str_bool_false_iff in Eb.
      rewrite (str_run_thought a Ea), (str_run_no_thought b Eb).
      intros H. discriminate H.
    + apply str_bool_false_iff in Ea. apply str_bool_true_iff in Eb.
      rewrite (str_run_no_thought a Ea), (str_run_thought b Eb).
      intros H. discriminate H.
    + apply str_bool_false_iff in Ea, Eb.
      rewrite (str_run_no_thought a Ea), (str_run_no_thought b Eb).
      intros [= H]. split.
      * congruence.
      * exact H.
  - intros [Ht Hp]. unfold returned. rewrite !str_run. cbn [fst].
    now rewrite Ht, Hp.
Qed.

(** X3: a [thought] that holds a line feed can make two different records
    render alike: for a non-empty [t], the record with thought [t] and path
    [p], line feed, "FILE_PATH: ", [q] and the record with thought [t], line
    feed, "FILE_PATH: ", [p] and path [q] have the same rendering and
    different paths. *)
Theorem str_ambiguous_with_line_feed (t p q : string)
    (act1 act2 : string) (risk1 risk2 : option ActionSecurityRisk) :
  t <> EmptyString ->
  let a : Action :=
    mkVSCodeOpenFileAction (p ++ nl ++ "FILE_PATH: " ++ q) t act1 risk1 in
  let b : Action :=
    mkVSCodeOpenFileAction q (t ++ nl ++ "FILE_PATH: " ++ p) act2 risk2 in
  returned __str__ a = returned __str__ b
  /\ file_path a <> file_path b.
Proof.
  intros Ht a b. split.
  - assert (Hb : thought b <> EmptyString).
    { subst b. cbn [thought]. destruct t; [now contradiction Ht|discriminate]. }
    rewrite (str_run_thought a Ht), (str_run_thought b Hb).
    subst a b. cbn [thought file_path].
    now rewrite !append_assoc.
  - subst a b. cbn [file_path]. intros H.
    apply (f_equal String.length) in H.
    rewrite !length_append in H. cbn [String.length nl] in H. lia.
Qed.

(** X4: when [thought] and [file_path] are single lines, the lines of the
    rendering are the header, then "THOUGHT: " and the thought if the
    thought is not empty, then "FILE_PATH: " and the path, and no other. *)
Theorem str_lines (self : Action) :
  single_line (thought self) = true ->
  single_line (file_path self) = true ->
  exists out : string,
    returned __str__ self = Ok out
    /\ split_lines out
       = "**VSCodeOpenFileAction**"
         :: (if str_bool (thought self)
             then ["THOUGHT: " ++ thought self] else [])
         ++ ["FILE_PATH: " ++ file_path self].
Proof.
  intros Ht Hp.
  assert (Hfp : single_line ("FILE_PATH: " ++ file_path self) = true)
    by exact Hp.
  destruct (str_bool (thought self)) eqn:E.
  - apply str_bool_true_iff in E.
    eexists; split; [exact (str_run_thought self E)|].
    rewrite split_lines_nl by reflexivity.
    rewrite split_lines_nl by exact Ht.
    now rewrite split_lines_single.
  - apply str_bool_false_iff in E.
    eexists; split; [exact (str_run_no_thought self E)|].
    rewrite split_lines_nl by reflexivity.
    now rewrite split_lines_single.
Qed.

(** X5: whatever the fields hold, the first line of the rendering is the
    header, and the text after it starts with "THOUGHT: " or with
    "FILE_PATH: ": field contents never reach the first line. *)
Theorem str_first_line_is_header (self : Action) :
  exists out rest : string,
    returned __str__ self = Ok out
    /\ first_line out = "**VSCodeOpenFileAction**"
    /\ after_first_line out = Some rest
    /\ (prefix "THOUGHT: " rest = true \/ prefix "FILE_PATH: " rest = true).
Proof.
  destruct (str_bool (thought self)) eqn:E.
  - apply str_bool_true_iff in E.
    eexists; eexists; split; [exact (str_run_thought self E)|].
    rewrite first_line_before_nl, after_first_line_nl by reflexivity.
    repeat split. left. cbn. apply prefix_empty.
  - apply str_bool_false_iff in E.
    eexists; eexists; split; [exact (str_run_no_thought self E)|].
    rewrite first_line_before_nl, after_first_line_nl by reflexivity.
    repeat split. right. cbn. apply prefix_empty.
Qed.

(** X6: the generated [__eq__] is an equivalence on instances: reflexive,
    symmetric and transitive. *)
Theorem eq_is_equivalence :
  (forall a : Action, __eq__ ActionSecurityRisk_eq_dec a a = true)
  /\ (forall a b : Action,
        __eq__ ActionSecurityRisk_eq_dec a b
        = __eq__ ActionSecurityRisk_eq_dec b a)
  /\ (forall a b c : Action,
        __eq__ ActionSecurityRisk_eq_dec a b = true ->
        __eq__ ActionSecurityRisk_eq_dec b c = true ->
        __eq__ ActionSecurityRisk_eq_dec a c = true).
Proof.
  split; [|split].
  - intros a. now apply dataclass_eq_true_iff.
  - intros a b.
    destruct (__eq__ ActionSecurityRisk_eq_dec a b) eqn:Eab,
             (__eq__ ActionSecurityRisk_eq_dec b a) eqn:Eba;
      try reflexivity.
    + apply dataclass_eq_true_iff in Eab. subst b.
      rewrite (proj2 (dataclass_eq_true_iff a a) eq_refl) in Eba.
      discriminate.
    + apply dataclass_eq_true_iff in Eba. subst b.
      rewrite (proj2 (dataclass_eq_true_iff a a) eq_refl) in Eab.
      discriminate.
  - intros a b c Hab Hbc.
    apply dataclass_eq_true_iff in Hab, Hbc.
    apply dataclass_eq_true_iff. congruence.
Qed.

(** X7: passing the declared defaults explicitly gives an instance equal
    (under [__eq__]) to the one built from [file_path] alone. *)
Theorem explicit_defaults_equal_omitted (p : string) :
  exists a b : Action,
    new (mkInitArgs (Some p) None None None) = Ok a
    /\ new (mkInitArgs (Some p) (Some EmptyString)
              (Some VSCODE_OPEN_FILE) (Some None)) = Ok b
    /\ __eq__ ActionSecurityRisk_eq_dec a b = true.
Proof.
  unfold new, __init__. cbn.
  eexists; eexists; repeat split.
  now apply dataclass_eq_true_iff.
Qed.

End Properties.

(** ** Concrete instances

    The properties above at sample values: risk levels numbered by [nat],
    and "vscode_open_file" for [ActionType.VSCODE_OPEN_FILE]. *)

Example str_renders_thought_then_path :
  returned __str__
    (mkVSCodeOpenFileAction "src/main.py" "check the entry point"
       "vscode_open_file" (Some 1))
  = Ok ("**VSCodeOpenFileAction**" ++ nl
        ++ "THOUGHT: check the entry point" ++ nl
        ++ "FILE_PATH: src/main.py").
Proof. reflexivity. Qed.

Example init_without_file_path_raises :
  __init__ (ActionSecurityRisk := nat) "vscode_open_file"
    (mkInitArgs None (Some "look") None None)
  = Raise (TypeError_missing_argument "file_path").
Proof. reflexivity. Qed.

(** C2 at the path "a.py". *)
Lemma str_without_thought_witness :
  "a.py" <> EmptyString
  /\ exists self : VSCodeOpenFileAction nat,
       __init__ "vscode_open_file" (mkInitArgs (Some "a.py") None None None)
       = Ok self
       /\ __str__ self
          = (Ok (("**VSCodeOpenFileAction**" ++ nl ++ "FILE_PATH: ") ++ "a.py"),
             self).
Proof.
  split; [discriminate|].
  apply (str_without_thought nat "vscode_open_file" "a.py" None None).
  discriminate.
Defined.

(** C3 at the path "a.py" and the thought "look". *)
Lemma str_with_thought_witness :
  "look" <> EmptyString
  /\ ((exists self : VSCodeOpenFileAction nat,
         __init__ "vscode_open_file"
           (mkInitArgs (Some "a.py") (Some "look") None None) = Ok self
         /\ __str__ self
            = (Ok (((("**VSCodeOpenFileAction**" ++ nl ++ "THOUGHT: ") ++ "look")
                     ++ (nl ++ "FILE_PATH: ")) ++ "a.py"), self))
      /\ (forall (self : VSCodeOpenFileAction nat) (out : string),
            returned __str__ self = Ok out ->
            (has_thought_line out = true <-> thought self <> EmptyString))).
Proof.
  split; [discriminate|].
  apply (str_with_thought nat "vscode_open_file" "a.py" "look" None None).
  discriminate.
Defined.

(** C4 (as amended) at a call that binds [file_path], [thought] and
    [security_risk] and leaves [action] out. *)
Lemma action_defaults_to_constant_witness :
  arg_action (mkInitArgs (ActionSecurityRisk := nat)
                (Some "a.py") (Some "look") None (Some (Some 2)))
  = None
  /\ __init__ "vscode_open_file"
       (mkInitArgs (Some "a.py") (Some "look") None (Some (Some 2)))
     = Ok (mkVSCodeOpenFileAction "a.py" "look" "vscode_open_file" (Some 2))
  /\ action (mkVSCodeOpenFileAction "a.py" "look" "vscode_open_file" (Some 2))
     = "vscode_open_file".
Proof.
  split; [reflexivity|]. split; [reflexivity|].
  apply (action_defaults_to_constant nat "vscode_open_file"
           (mkInitArgs (Some "a.py") (Some "look") None (Some (Some 2))));
    reflexivity.
Defined.

(** C4 (as stated) fails: whatever string [ActionType.VSCODE_OPEN_FILE]
    is, the call that binds [file_path] to "a.py" and [action] to that string
    with "x" put in front constructs an instance whose [action] is not the
    constant. *)
Lemma action_argument_overrides_default :
  ~ (exists c : string,
       forall (args : InitArgs nat) (self : VSCodeOpenFileAction nat),
         __init__ c args = Ok self -> action self = c).
Proof.
  intros [c H].
  specialize (H (mkInitArgs (Some "a.py") None (Some (String "x" c)) None)
                _ eq_refl).
  simpl in H. apply (f_equal String.length) in H. simpl in H. lia.
Qed.

(** C9 at two records that differ in [action] and in [security_risk]. *)
Lemma accessors_ignore_action_and_risk_witness :
  file_path (mkVSCodeOpenFileAction "a.py" "look" "vscode_open_file" (Some 0))
  = file_path (mkVSCodeOpenFileAction "a.py" "look" "run" (@None nat))
  /\ thought (mkVSCodeOpenFileAction "a.py" "look" "vscode_open_file" (Some 0))
     = thought (mkVSCodeOpenFileAction "a.py" "look" "run" (@None nat))
  /\ returned message
       (mkVSCodeOpenFileAction "a.py" "look" "vscode_open_file" (Some 0))
     = returned message (mkVSCodeOpenFileAction "a.py" "look" "run" (@None nat))
  /\ returned __str__
       (mkVSCodeOpenFileAction "a.py" "look" "vscode_open_file" (Some 0))
     = returned __str__
         (mkVSCodeOpenFileAction "a.py" "look" "run" (@None nat)).
Proof.
  split; [reflexivity|]. split; [reflexivity|].
  apply (accessors_ignore_action_and_risk nat
           (mkVSCodeOpenFileAction "a.py" "look" "vscode_open_file" (Some 0))
           (mkVSCodeOpenFileAction "a.py" "look" "run" None));
    reflexivity.
Defined.

(** X2 at two single-line records that differ in [action] only. *)
Lemma str_injective_on_single_line_thought_witness :
  single_line (thought (mkVSCodeOpenFileAction "a.py" "look" "run" (@None nat)))
  = true
  /\ single_line
       (thought (mkVSCodeOpenFileAction "a.py" "look" "open" (@None nat)))
     = true
  /\ (returned __str__ (mkVSCodeOpenFileAction "a.py" "look" "run" (@None nat))
      = returned __str__
          (mkVSCodeOpenFileAction "a.py" "look" "open" (@None nat))
      <-> thought (mkVSCodeOpenFileAction "a.py" "look" "run" (@None nat))
          = thought (mkVSCodeOpenFileAction "a.py" "look" "open" (@None nat))
          /\ file_path (mkVSCodeOpenFileAction "a.py" "look" "run" (@None nat))
             = file_path
                 (mkVSCodeOpenFileAction "a.py" "look" "open" (@None nat))).
Proof.
  split; [reflexivity|]. split; [reflexivity|].
  apply (str_injective_on_single_line_thought nat
           (mkVSCodeOpenFileAction "a.py" "look" "run" None)
           (mkVSCodeOpenFileAction "a.py" "look" "open" None));
    reflexivity.
Defined.

(** X3 at the thought "look" and the paths "a.py" and "b.py". *)
Lemma str_ambiguous_with_line_feed_witness :
  "look" <> EmptyString
  /\ returned __str__
       (mkVSCodeOpenFileAction ("a.py" ++ nl ++ "FILE_PATH: " ++ "b.py")
          "look" "run" (@None nat))
     = returned __str__
         (mkVSCodeOpenFileAction "b.py"
            ("look" ++ nl ++ "FILE_PATH: " ++ "a.py") "run" (@None nat))
  /\ file_path
       (mkVSCodeOpenFileAction ("a.py" ++ nl ++ "FILE_PATH: " ++ "b.py")
          "look" "run" (@None nat))
     <> file_path
          (mkVSCodeOpenFileAction "b.py"
             ("look" ++ nl ++ "FILE_PATH: " ++ "a.py") "run" (@None nat)).
Proof.
  split; [discriminate|].
  apply (str_ambiguous_with_line_feed nat "look" "a.py" "b.py"
           "run" "run" None None).
  discriminate.
Defined.

(** X4 at the thought "look" and the path "a.py". *)
Lemma str_lines_witness :
  single_line (thought (mkVSCodeOpenFileAction "a.py" "look" "run" (@None nat)))
  = true
  /\ single_line
       (file_path (mkVSCodeOpenFileAction "a.py" "look" "run" (@None nat)))
     = true
  /\ exists out : string,
       returned __str__ (mkVSCodeOpenFileAction "a.py" "look" "run" (@None nat))
       = Ok out
       /\ split_lines out
          = ["**VSCodeOpenFileAction**"; "THOUGHT: look"; "FILE_PATH: a.py"].
Proof.
  split; [reflexivity|]. split; [reflexivity|].
  apply (str_lines nat (mkVSCodeOpenFileAction "a.py" "look" "run" None));
    reflexivity.
Defined.
